(** * Verification of [dataprofiler/profilers/json_decoder.py]

    The decoder keeps two module-level dicts, [_profiles] and [_compilers],
    mapping class names to classes, looks names up in them
    ([get_column_profiler_class], [get_compiler_class]) and rebuilds
    serialized objects by delegating to the class's [load_from_dict]
    ([load_column_profile], [load_compiler]). *)

From Stdlib Require Import String.
From stdpp Require Import base gmap strings pretty.

Open Scope string_scope.
#[local] Set Warnings "-register-all".

(** ** Python values *)

(** The values [json.loads] produces: the envelope and its payload.
    Numbers are Python [int]s. *)
Inductive json : Type :=
| JNull
| JBool (b : bool)
| JInt (z : Z)
| JStr (s : string)
| JArr (xs : list json)
| JObj (kvs : list (string * json)).

(** A Python dict with string keys, such as [serialized_json]. *)
Abbreviation pydict := (gmap string json).

(** [str(v)] for the hashable values; lists and dicts never reach it in
    the decoder because hashing them fails first. *)
Definition py_str (v : json) : string :=
  match v with
  | JNull => "None"
  | JBool true => "True"
  | JBool false => "False"
  | JInt z => pretty z
  | JStr s => s
  | JArr _ => "[...]"
  | JObj _ => "{...}"
  end.

(** ** Exceptions and outcomes *)

(** A raised Python exception: its class name and its message. *)
Record exc : Type := mkExc { exc_type : string; exc_msg : string }.

Definition ValueError (msg : string) : exc := mkExc "ValueError" msg.
Definition KeyError (key : string) : exc := mkExc "KeyError" key.
Definition TypeError (msg : string) : exc := mkExc "TypeError" msg.

(** Either a returned value or a raised exception. *)
Inductive outcome (A : Type) : Type :=
| Ret (a : A)
| Raise (e : exc).
Arguments Ret {A} a.
Arguments Raise {A} e.

(** An outcome that is a raised [UnknownClassError]. *)
Definition raises_unknown_class_error {A} (r : outcome A) : Prop :=
  match r with
  | Raise e => exc_type e = "UnknownClassError"
  | Ret _ => False
  end.

(** ** Module state *)

Section Decoder.

(** Profiler classes ([Type[BaseColumnProfiler]]), profiler instances,
    compiler classes ([Type[BaseCompiler]]) and compiler instances. *)
Context {pcls pinst ccls cinst : Type}.

(** The classmethods [load_from_dict] of the two families: owned by the
    target classes, so they are parameters of the development. They stand
    for the outcome of the decoder's one delegated call; whatever a class
    does inside it (a compiler rebuilding its nested profiles through
    [load_column_profile], for instance) is not modelled, so no statement
    below is about such nested calls. *)
Variable profiler_load_from_dict : pcls -> json -> outcome pinst.
Variable compiler_load_from_dict : ccls -> json -> outcome cinst.

(** A call to some class's [load_from_dict], as observed from outside. *)
Inductive call : Type :=
| ProfilerLoad (c : pcls) (data : json)
| CompilerLoad (c : ccls) (data : json).

(** The module globals, plus the log of [load_from_dict] calls made so
    far (the observable trace of the decoder). *)
Record state : Type := mkState {
  _profiles : gmap string pcls;
  _compilers : gmap string ccls;
  calls : list call
}.

(** A state and exception monad: every statement may raise. *)
Definition M (A : Type) : Type := state -> state * outcome A.

Definition ret {A} (a : A) : M A := fun st => (st, Ret a).
Definition raise {A} (e : exc) : M A := fun st => (st, Raise e).
Definition bind {A B} (m : M A) (k : A -> M B) : M B :=
  fun st =>
    match m st with
    | (st', Ret a) => k a st'
    | (st', Raise e) => (st', Raise e)
    end.

Notation "'let*' x := m 'in' k" := (bind m (fun x => k))
  (at level 200, x name, m at level 100, k at level 200).

(** ** Dict operations *)

(** [d.get(key)] on a dict whose keys are [str]: a string key is looked
    up; any other hashable key equals no [str] key and gives [None];
    lists and dicts are unhashable and raise [TypeError]. *)
Definition dict_get {V} (d : gmap string V) (key : json) : M (option V) :=
  match key with
  | JStr s => ret (d !! s)
  | JArr _ => raise (TypeError "unhashable type: 'list'")
  | JObj _ => raise (TypeError "unhashable type: 'dict'")
  | _ => ret None
  end.

(** [serialized_json[key]]: [KeyError(key)] when absent. *)
Definition getitem (d : pydict) (key : string) : M json :=
  match d !! key with
  | Some v => ret v
  | None => raise (KeyError key)
  end.

(** Reading a module global. *)
Definition read {A} (f : state -> A) : M A := fun st => (st, Ret (f st)).

(** [cls.load_from_dict(data)]: the call is logged, then its outcome,
    value or exception, is what the call evaluates to. *)
Definition invoke_profiler_load (c : pcls) (data : json) : M pinst :=
  fun st =>
    (mkState (_profiles st) (_compilers st) (calls st ++ [ProfilerLoad c data]),
     profiler_load_from_dict c data).

Definition invoke_compiler_load (c : ccls) (data : json) : M cinst :=
  fun st =>
    (mkState (_profiles st) (_compilers st) (calls st ++ [CompilerLoad c data]),
     compiler_load_from_dict c data).

(** ** The decoder *)

(** Lines 14-29. *)
Definition get_column_profiler_class (class_name : json) : M pcls :=
  let* profiles := read _profiles in
  let* profile_class := dict_get profiles class_name in
  match profile_class with
  | None =>
      raise (ValueError ("Invalid profiler class " ++ py_str class_name
                         ++ " " ++ "failed to load."))
  | Some c => ret c
  end.

(** Lines 32-47. *)
Definition get_compiler_class (class_name : json) : M ccls :=
  let* compilers := read _compilers in
  let* compiler_class := dict_get compilers class_name in
  match compiler_class with
  | None =>
      raise (ValueError ("Invalid compiler class " ++ py_str class_name
                         ++ " " ++ "failed to load."))
  | Some c => ret c
  end.

(** Lines 50-75. Python evaluates [serialized_json["class"]], calls the
    lookup, then fetches the attribute [load_from_dict] (no effect) and
    evaluates [serialized_json["data"]] before the call. *)
Definition load_column_profile (serialized_json : pydict) : M pinst :=
  let* name := getitem serialized_json "class" in
  let* column_profiler_cls := get_column_profiler_class name in
  let* data := getitem serialized_json "data" in
  invoke_profiler_load column_profiler_cls data.

(** Lines 78-103. *)
Definition load_compiler (serialized_json : pydict) : M cinst :=
  let* name := getitem serialized_json "class" in
  let* column_profiler_cls := get_compiler_class name in
  let* data := getitem serialized_json "data" in
  invoke_compiler_load column_profiler_cls data.

(** Modelled from the spec: the registration of classes, done by the
    package [__init__] of [dataprofiler.profilers], which is not among the
    sources. The spec's [register(name, type)] "inserts or overwrites the
    mapping for [name]"; on the dicts above this is [_profiles[name] = cls]
    (resp. [_compilers[name] = cls]). *)
Definition register_profiler (name : string) (c : pcls) (st : state) : state :=
  mkState (<[name := c]> (_profiles st)) (_compilers st) (calls st).

Definition register_compiler (name : string) (c : ccls) (st : state) : state :=
  mkState (_profiles st) (<[name := c]> (_compilers st)) (calls st).

(** ** Facts about the decoder *)

(** The error the lookup raises for an unknown string name. *)
Definition invalid_class_error (family name : string) : exc :=
  ValueError ("Invalid " ++ family ++ " class " ++ name ++ " failed to load.").

(** A value that names no class of the registry [reg]. *)
Definition not_registered {V} (reg : gmap string V) (v : json) : Prop :=
  forall n, v = JStr n -> reg !! n = None.

(** The state after the decoder logged one [load_from_dict] call. *)
Definition with_call (st : state) (k : call) : state :=
  mkState (_profiles st) (_compilers st) (calls st ++ [k]).

(** [None], a [bool] or an [int]: hashable, but never equal to a [str]
    key of the registries. *)
Definition hashable_non_str (v : json) : bool :=
  match v with
  | JNull | JBool _ | JInt _ => true
  | JStr _ | JArr _ | JObj _ => false
  end.

Ltac run_decoder :=
  unfold load_column_profile, load_compiler, get_column_profiler_class,
    get_compiler_class, invoke_profiler_load, invoke_compiler_load,
    dict_get, getitem, read, bind, ret, raise, with_call,
    invalid_class_error, ValueError in *; simpl in *.

(** Case analysis following the loader's statements: the ["class"] key,
    the kind of class value, the registry entry and the ["data"] key. *)
Ltac case_load env reg :=
  let v := fresh "v" in let n := fresh "n" in let c := fresh "c" in
  let d := fresh "d" in
  destruct (env !! "class") as [v|] eqn:?; simpl;
  [destruct v as [| ? | ? | n | ? | ?]; simpl;
   [.. | destruct (reg !! n) as [c|] eqn:?; simpl;
         [destruct (env !! "data") as [d|] eqn:?; simpl | ] | | ] | ].

Lemma getitem_ext (env1 env2 : pydict) (key : string) st :
  env1 !! key = env2 !! key -> getitem env1 key st = getitem env2 key st.
Proof. intros H. unfold getitem. by rewrite H. Qed.

Lemma get_column_profiler_class_str (n : string) st :
  get_column_profiler_class (JStr n) st =
  (st, match _profiles st !! n with
       | Some c => Ret c
       | None => Raise (invalid_class_error "profiler" n)
       end).
Proof. run_decoder. by destruct (_profiles st !! n). Qed.

Lemma get_compiler_class_str (n : string) st :
  get_compiler_class (JStr n) st =
  (st, match _compilers st !! n with
       | Some c => Ret c
       | None => Raise (invalid_class_error "compiler" n)
       end).
Proof. run_decoder. by destruct (_compilers st !! n). Qed.

(** C1: when the envelope's ["class"] is a registered name, the loaders
    return exactly what the resolved class's [load_from_dict] returns on
    the envelope's ["data"], and the only effect is that one call. *)
Theorem load_delegates_to_load_from_dict (env : pydict) st (n : string) (d : json) :
  env !! "class" = Some (JStr n) ->
  env !! "data" = Some d ->
  (forall c, _profiles st !! n = Some c ->
     load_column_profile env st =
     (with_call st (ProfilerLoad c d), profiler_load_from_dict c d)) /\
  (forall c, _compilers st !! n = Some c ->
     load_compiler env st =
     (with_call st (CompilerLoad c d), compiler_load_from_dict c d)).
Proof.
  intros Hc Hd. split; intros c Hreg; run_decoder;
    rewrite Hc; simpl; rewrite Hreg, Hd; reflexivity.
Qed.

(** C2 (as the code does it): an unregistered name makes the lookup raise
    [ValueError("Invalid profiler class <n> failed to load.")], resp.
    [... compiler class ...]: the message names [n] and the family. *)
Theorem lookup_unknown_raises_value_error (n : string) st :
  (_profiles st !! n = None ->
     get_column_profiler_class (JStr n) st =
     (st, Raise (mkExc "ValueError"
                   ("Invalid profiler class " ++ n ++ " failed to load.")))) /\
  (_compilers st !! n = None ->
     get_compiler_class (JStr n) st =
     (st, Raise (mkExc "ValueError"
                   ("Invalid compiler class " ++ n ++ " failed to load.")))).
Proof.
  split; intros H;
    [rewrite get_column_profiler_class_str | rewrite get_compiler_class_str];
    rewrite H; reflexivity.
Qed.

(** C3: a registered name resolves to exactly the registered class,
    without touching the state, so a second call gives the same class. *)
Theorem lookup_registered_exact (n : string) st :
  (forall c, _profiles st !! n = Some c ->
     get_column_profiler_class (JStr n) st = (st, Ret c) /\
     (let* c1 := get_column_profiler_class (JStr n) in
      let* c2 := get_column_profiler_class (JStr n) in
      ret (c1, c2)) st = (st, Ret (c, c))) /\
  (forall c, _compilers st !! n = Some c ->
     get_compiler_class (JStr n) st = (st, Ret c) /\
     (let* c1 := get_compiler_class (JStr n) in
      let* c2 := get_compiler_class (JStr n) in
      ret (c1, c2)) st = (st, Ret (c, c))).
Proof.
  split; intros c H; run_decoder; rewrite H; simpl; rewrite ?H; split; reflexivity.
Qed.

(** C4: when the resolved class's [load_from_dict] raises [e] on the
    payload, the loader raises that same [e]; nothing is caught or
    replaced. *)
Theorem load_propagates_load_from_dict_error (env : pydict) st (n : string)
    (d : json) (e : exc) :
  env !! "class" = Some (JStr n) ->
  env !! "data" = Some d ->
  (forall c, _profiles st !! n = Some c ->
     profiler_load_from_dict c d = Raise e ->
     load_column_profile env st = (with_call st (ProfilerLoad c d), Raise e)) /\
  (forall c, _compilers st !! n = Some c ->
     compiler_load_from_dict c d = Raise e ->
     load_compiler env st = (with_call st (CompilerLoad c d), Raise e)).
Proof.
  intros Hc Hd. split; intros c Hreg Hload; run_decoder;
    rewrite Hc; simpl; rewrite Hreg, Hd; simpl; rewrite Hload; reflexivity.
Qed.

(** C5 (as the code does it): when the envelope's ["class"] names no
    registered class, the loader raises before any [load_from_dict] call
    (the state, call log included, is unchanged): a [ValueError] naming
    the value when it is hashable, a [TypeError] when it is a list or a
    dict. *)
Theorem load_unknown_class_no_delegation (env : pydict) st (v : json) :
  env !! "class" = Some v ->
  (not_registered (_profiles st) v ->
     exists e, load_column_profile env st = (st, Raise e) /\
       (exc_type e = "ValueError" \/ exc_type e = "TypeError") /\
       (forall n, v = JStr n -> e = invalid_class_error "profiler" n) /\
       (hashable_non_str v = true ->
          e = ValueError ("Invalid profiler class " ++ py_str v
                          ++ " failed to load.")) /\
       (forall xs, v = JArr xs -> e = TypeError "unhashable type: 'list'") /\
       (forall kvs, v = JObj kvs -> e = TypeError "unhashable type: 'dict'")) /\
  (not_registered (_compilers st) v ->
     exists e, load_compiler env st = (st, Raise e) /\
       (exc_type e = "ValueError" \/ exc_type e = "TypeError") /\
       (forall n, v = JStr n -> e = invalid_class_error "compiler" n) /\
       (hashable_non_str v = true ->
          e = ValueError ("Invalid compiler class " ++ py_str v
                          ++ " failed to load.")) /\
       (forall xs, v = JArr xs -> e = TypeError "unhashable type: 'list'") /\
       (forall kvs, v = JObj kvs -> e = TypeError "unhashable type: 'dict'")).
Proof.
  intros Hc. unfold not_registered.
  split; intros Hnr; run_decoder; rewrite Hc; simpl;
    destruct v as [| b | z | s | xs | kvs]; simpl;
    try rewrite (Hnr s eq_refl); simpl;
    (eexists; split; [reflexivity |]);
    (split; [first [by left | by right] |]);
    repeat split; intros; simplify_eq; try discriminate; reflexivity.
Qed.

(** C6: a lookup, successful or failed, with any key, returns the state
    it was given: both registries (and the call log) are unchanged. *)
Theorem lookup_preserves_registries (class_name : json) st :
  fst (get_column_profiler_class class_name st) = st /\
  fst (get_compiler_class class_name st) = st.
Proof.
  run_decoder. destruct class_name as [| | | s | |]; simpl; try (split; reflexivity).
  destruct (_profiles st !! s), (_compilers st !! s); split; reflexivity.
Qed.

(** C7 (registration, modelled from the spec): [register] maps [name] to
    the class whatever it mapped to before, leaves every other name, the
    other registry and the call log as they were, and registering the
    same pair twice is registering it once. *)
Theorem register_insert_idempotent (name : string) st :
  (forall c : pcls,
     _profiles (register_profiler name c st) !! name = Some c /\
     (forall n, n <> name ->
        _profiles (register_profiler name c st) !! n = _profiles st !! n) /\
     _compilers (register_profiler name c st) = _compilers st /\
     calls (register_profiler name c st) = calls st /\
     register_profiler name c (register_profiler name c st) =
     register_profiler name c st) /\
  (forall c : ccls,
     _compilers (register_compiler name c st) !! name = Some c /\
     (forall n, n <> name ->
        _compilers (register_compiler name c st) !! n = _compilers st !! n) /\
     _profiles (register_compiler name c st) = _profiles st /\
     calls (register_compiler name c st) = calls st /\
     register_compiler name c (register_compiler name c st) =
     register_compiler name c st).
Proof.
  unfold register_profiler, register_compiler; simpl.
  split; intros c; (split; [by rewrite lookup_insert_eq |]);
    (split; [intros n Hn; by rewrite lookup_insert_ne |]);
    (split; [reflexivity |]); (split; [reflexivity |]);
    by rewrite insert_insert_eq.
Qed.

(** C8: an envelope without ["class"] raises [KeyError('class')]; one
    whose registered ["class"] comes without ["data"] raises
    [KeyError('data')]; in both cases the state is returned unchanged, so
    no [load_from_dict] was called. *)
Theorem load_missing_key_raises_key_error (env : pydict) st :
  (env !! "class" = None ->
     load_column_profile env st = (st, Raise (KeyError "class")) /\
     load_compiler env st = (st, Raise (KeyError "class"))) /\
  (forall n, env !! "class" = Some (JStr n) -> env !! "data" = None ->
     (forall c, _profiles st !! n = Some c ->
        load_column_profile env st = (st, Raise (KeyError "data"))) /\
     (forall c, _compilers st !! n = Some c ->
        load_compiler env st = (st, Raise (KeyError "data")))).
Proof.
  split.
  - intros Hc. run_decoder. rewrite Hc. split; reflexivity.
  - intros n Hc Hd. split; intros c Hreg; run_decoder;
      rewrite Hc; simpl; rewrite Hreg, Hd; reflexivity.
Qed.

(** C9: the outcome of [get_column_profiler_class] depends on
    [_profiles] only, that of [get_compiler_class] on [_compilers] only. *)
Theorem lookup_reads_own_registry (class_name : json) st1 st2 :
  (_profiles st1 = _profiles st2 ->
     snd (get_column_profiler_class class_name st1) =
     snd (get_column_profiler_class class_name st2)) /\
  (_compilers st1 = _compilers st2 ->
     snd (get_compiler_class class_name st1) =
     snd (get_compiler_class class_name st2)).
Proof.
  split; intros H; run_decoder; rewrite H;
    destruct class_name as [| | | s | |]; simpl; try reflexivity;
    [destruct (_profiles st2 !! s) | destruct (_compilers st2 !! s)];
    reflexivity.
Qed.

(** C10: the loaders read only the keys ["class"] and ["data"]: two
    envelopes that agree on both (present with equal values, or absent)
    give the same outcome and the same final state. *)
Theorem load_reads_only_class_and_data (env1 env2 : pydict) st :
  env1 !! "class" = env2 !! "class" ->
  env1 !! "data" = env2 !! "data" ->
  load_column_profile env1 st = load_column_profile env2 st /\
  load_compiler env1 st = load_compiler env2 st.
Proof.
  intros Hc Hd. unfold load_column_profile, load_compiler, bind.
  rewrite (getitem_ext env1 env2 "class" st Hc).
  split; destruct (getitem env2 "class" st) as [st1 [name | e]];
    try reflexivity;
    [destruct (get_column_profiler_class name st1) as [st2 [cls | e]]
    | destruct (get_compiler_class name st1) as [st2 [cls | e]]];
    try reflexivity; by rewrite (getitem_ext env1 env2 "data" st2 Hd).
Qed.

(** ** Further properties of the decoder *)

(** A class value that is [None], a [bool] or an [int] makes the lookup
    raise [ValueError] naming [str(v)], whatever the registries hold. *)
Theorem lookup_non_string_value_error (v : json) st :
  hashable_non_str v = true ->
  get_column_profiler_class v st =
    (st, Raise (ValueError ("Invalid profiler class " ++ py_str v
                            ++ " failed to load."))) /\
  get_compiler_class v st =
    (st, Raise (ValueError ("Invalid compiler class " ++ py_str v
                            ++ " failed to load."))).
Proof.
  intros H. destruct v as [| b | z | s | xs | kvs]; try discriminate H;
    run_decoder; split; reflexivity.
Qed.

(** A list or dict class value makes the lookup raise [TypeError]
    (unhashable), not the [ValueError] of an unknown name. *)
Theorem lookup_unhashable_type_error (xs : list json)
    (kvs : list (string * json)) st :
  get_column_profiler_class (JArr xs) st =
    (st, Raise (TypeError "unhashable type: 'list'")) /\
  get_compiler_class (JArr xs) st =
    (st, Raise (TypeError "unhashable type: 'list'")) /\
  get_column_profiler_class (JObj kvs) st =
    (st, Raise (TypeError "unhashable type: 'dict'")) /\
  get_compiler_class (JObj kvs) st =
    (st, Raise (TypeError "unhashable type: 'dict'")).
Proof. run_decoder. repeat split. Qed.

(** Each loader's only effect is at most one logged [load_from_dict]
    call: either the state comes back as it was, or the ["class"] value
    is a registered name, ["data"] is present and exactly that call was
    added. The registries are never changed. *)
Theorem load_effect_at_most_one_call (env : pydict) st :
  (fst (load_column_profile env st) = st \/
   exists n c d, env !! "class" = Some (JStr n) /\ _profiles st !! n = Some c /\
     env !! "data" = Some d /\
     fst (load_column_profile env st) = with_call st (ProfilerLoad c d)) /\
  (fst (load_compiler env st) = st \/
   exists n c d, env !! "class" = Some (JStr n) /\ _compilers st !! n = Some c /\
     env !! "data" = Some d /\
     fst (load_compiler env st) = with_call st (CompilerLoad c d)).
Proof.
  split; run_decoder.
  - case_load env (_profiles st); try (left; reflexivity).
    right. eauto 10.
  - case_load env (_compilers st); try (left; reflexivity).
    right. eauto 10.
Qed.

(** A load that returns a value got it from [load_from_dict] of the class
    registered under the envelope's string ["class"], on its ["data"]. *)
Theorem load_success_inversion (env : pydict) st :
  (forall st' x, load_column_profile env st = (st', Ret x) ->
     exists n c d, env !! "class" = Some (JStr n) /\ _profiles st !! n = Some c /\
       env !! "data" = Some d /\ profiler_load_from_dict c d = Ret x /\
       st' = with_call st (ProfilerLoad c d)) /\
  (forall st' x, load_compiler env st = (st', Ret x) ->
     exists n c d, env !! "class" = Some (JStr n) /\ _compilers st !! n = Some c /\
       env !! "data" = Some d /\ compiler_load_from_dict c d = Ret x /\
       st' = with_call st (CompilerLoad c d)).
Proof.
  split; intros st' x H; run_decoder.
  - case_load env (_profiles st); try discriminate H.
    destruct (profiler_load_from_dict c d) eqn:?; inversion H; subst; eauto 10.
  - case_load env (_compilers st); try discriminate H.
    destruct (compiler_load_from_dict c d) eqn:?; inversion H; subst; eauto 10.
Qed.

(** Every exception a loader raises is one of: [KeyError('class')],
    [KeyError('data')], the lookup's [ValueError] or [TypeError] (all with
    the state unchanged), or the very exception of the resolved class's
    [load_from_dict]. *)
Theorem load_error_sources (env : pydict) st :
  (forall st' e, load_column_profile env st = (st', Raise e) ->
     (st' = st /\ (e = KeyError "class" \/ e = KeyError "data" \/
                   exc_type e = "ValueError" \/ exc_type e = "TypeError")) \/
     exists n c d, env !! "class" = Some (JStr n) /\ _profiles st !! n = Some c /\
       env !! "data" = Some d /\ profiler_load_from_dict c d = Raise e /\
       st' = with_call st (ProfilerLoad c d)) /\
  (forall st' e, load_compiler env st = (st', Raise e) ->
     (st' = st /\ (e = KeyError "class" \/ e = KeyError "data" \/
                   exc_type e = "ValueError" \/ exc_type e = "TypeError")) \/
     exists n c d, env !! "class" = Some (JStr n) /\ _compilers st !! n = Some c /\
       env !! "data" = Some d /\ compiler_load_from_dict c d = Raise e /\
       st' = with_call st (CompilerLoad c d)).
Proof.
  split; intros st' e H; run_decoder.
  - case_load env (_profiles st); inversion H; subst;
      try (left; split; [reflexivity | tauto]).
    right. eauto 10.
  - case_load env (_compilers st); inversion H; subst;
      try (left; split; [reflexivity | tauto]).
    right. eauto 10.
Qed.

(** Registering [c] under [name] makes the lookup of [name] return [c];
    the lookup of any other name has the same outcome as before. *)
Theorem register_then_lookup (name : string) st :
  (forall c : pcls,
     get_column_profiler_class (JStr name) (register_profiler name c st) =
       (register_profiler name c st, Ret c) /\
     forall m, m <> name ->
       snd (get_column_profiler_class (JStr m) (register_profiler name c st)) =
       snd (get_column_profiler_class (JStr m) st)) /\
  (forall c : ccls,
     get_compiler_class (JStr name) (register_compiler name c st) =
       (register_compiler name c st, Ret c) /\
     forall m, m <> name ->
       snd (get_compiler_class (JStr m) (register_compiler name c st)) =
       snd (get_compiler_class (JStr m) st)).
Proof.
  split; intros c; split; rewrite ?get_column_profiler_class_str,
    ?get_compiler_class_str; simpl.
  - by rewrite lookup_insert_eq.
  - intros m Hm. rewrite !get_column_profiler_class_str; simpl.
    by rewrite lookup_insert_ne.
  - by rewrite lookup_insert_eq.
  - intros m Hm. rewrite !get_compiler_class_str; simpl.
    by rewrite lookup_insert_ne.
Qed.

End Decoder.

(** ** A concrete instance

    Classes are their names; [load_from_dict] accepts a dict payload and
    returns it tagged with the class, and raises [TypeError] on anything
    else, as a target class rejecting a malformed payload would. *)
Definition demo_load (c : string) (data : json) : outcome json :=
  match data with
  | JObj kvs => Ret (JObj (("class", JStr c) :: kvs))
  | _ => Raise (TypeError "data must be a dict")
  end.

Definition demo_state : @state string string :=
  mkState {[ "IntColumn" := "IntColumn" ]}
    {[ "ColumnStatsProfileCompiler" := "ColumnStatsProfileCompiler" ]} [].

Definition demo_data : json := JObj [("x", JInt 1)].

Definition demo_env : pydict :=
  <[ "class" := JStr "IntColumn" ]> (<[ "data" := demo_data ]> ∅).

Definition compiler_env : pydict :=
  <[ "class" := JStr "ColumnStatsProfileCompiler" ]> (<[ "data" := JInt 3 ]> ∅).

Definition missing_env : pydict :=
  <[ "class" := JStr "Missing" ]> (<[ "data" := JObj [] ]> ∅).

Definition empty_env : pydict := ∅.

Definition no_data_env : pydict := <[ "class" := JStr "IntColumn" ]> ∅.

Definition tagged_env : pydict := <[ "version" := JInt 2 ]> demo_env.

(** ** Witnesses *)

Lemma load_delegates_witness :
  demo_env !! "class" = Some (JStr "IntColumn") /\
  demo_env !! "data" = Some demo_data /\
  _profiles demo_state !! "IntColumn" = Some "IntColumn" /\
  load_column_profile demo_load demo_env demo_state =
  (with_call demo_state (ProfilerLoad "IntColumn" demo_data),
   demo_load "IntColumn" demo_data).
Proof.
  split; [reflexivity |]. split; [reflexivity |]. split; [reflexivity |].
  apply (proj1 (load_delegates_to_load_from_dict demo_load demo_load
                  demo_env demo_state "IntColumn" demo_data eq_refl eq_refl)).
  reflexivity.
Defined.

Lemma lookup_unknown_witness :
  _profiles demo_state !! "Bar" = None /\
  get_column_profiler_class (JStr "Bar") demo_state =
  (demo_state, Raise (mkExc "ValueError"
                        "Invalid profiler class Bar failed to load.")).
Proof.
  split; [reflexivity |].
  apply (proj1 (lookup_unknown_raises_value_error "Bar" demo_state)).
  reflexivity.
Defined.

Lemma lookup_registered_witness :
  _compilers demo_state !! "ColumnStatsProfileCompiler" =
    Some "ColumnStatsProfileCompiler" /\
  get_compiler_class (JStr "ColumnStatsProfileCompiler") demo_state =
    (demo_state, Ret "ColumnStatsProfileCompiler").
Proof.
  split; [reflexivity |].
  apply (proj2 (lookup_registered_exact "ColumnStatsProfileCompiler"
                  demo_state)).
  reflexivity.
Defined.

Lemma load_propagates_witness :
  demo_load "ColumnStatsProfileCompiler" (JInt 3) =
    Raise (TypeError "data must be a dict") /\
  load_compiler demo_load compiler_env demo_state =
  (with_call demo_state (CompilerLoad "ColumnStatsProfileCompiler" (JInt 3)),
   Raise (TypeError "data must be a dict")).
Proof.
  split; [reflexivity |].
  apply (proj2 (load_propagates_load_from_dict_error demo_load demo_load
                  compiler_env demo_state "ColumnStatsProfileCompiler"
                  (JInt 3) (TypeError "data must be a dict")
                  eq_refl eq_refl)); reflexivity.
Defined.

Lemma load_unknown_class_witness :
  missing_env !! "class" = Some (JStr "Missing") /\
  exists e, load_column_profile demo_load missing_env demo_state =
            (demo_state, Raise e) /\
    (exc_type e = "ValueError" \/ exc_type e = "TypeError") /\
    (forall n, JStr "Missing" = JStr n -> e = invalid_class_error "profiler" n) /\
    (hashable_non_str (JStr "Missing") = true ->
       e = ValueError ("Invalid profiler class " ++ py_str (JStr "Missing")
                       ++ " failed to load.")) /\
    (forall xs, JStr "Missing" = JArr xs -> e = TypeError "unhashable type: 'list'") /\
    (forall kvs, JStr "Missing" = JObj kvs -> e = TypeError "unhashable type: 'dict'").
Proof.
  split; [reflexivity |].
  apply (proj1 (load_unknown_class_no_delegation demo_load demo_load
                  missing_env demo_state (JStr "Missing") eq_refl)).
  intros n [= <-]. reflexivity.
Defined.

Lemma load_missing_key_witness :
  no_data_env !! "class" = Some (JStr "IntColumn") /\
  no_data_env !! "data" = None /\
  load_column_profile demo_load no_data_env demo_state =
    (demo_state, Raise (KeyError "data")) /\
  load_compiler demo_load empty_env demo_state =
    (demo_state, Raise (KeyError "class")).
Proof.
  split; [reflexivity |]. split; [reflexivity |]. split.
  - apply (proj1 (proj2 (load_missing_key_raises_key_error demo_load demo_load
                           no_data_env demo_state) "IntColumn" eq_refl eq_refl)
             "IntColumn").
    reflexivity.
  - apply (proj1 (load_missing_key_raises_key_error demo_load demo_load
                    empty_env demo_state) eq_refl).
Defined.

Lemma lookup_reads_own_registry_witness :
  _profiles demo_state = _profiles (register_compiler "Extra" "Extra" demo_state) /\
  snd (get_column_profiler_class (JStr "IntColumn") demo_state) =
  snd (get_column_profiler_class (JStr "IntColumn")
         (register_compiler "Extra" "Extra" demo_state)).
Proof.
  split; [reflexivity |].
  apply (proj1 (lookup_reads_own_registry (JStr "IntColumn") demo_state
                  (register_compiler "Extra" "Extra" demo_state))).
  reflexivity.
Defined.

Lemma load_reads_only_class_and_data_witness :
  tagged_env !! "class" = demo_env !! "class" /\
  tagged_env !! "data" = demo_env !! "data" /\
  load_column_profile demo_load tagged_env demo_state =
  load_column_profile demo_load demo_env demo_state.
Proof.
  split; [reflexivity |]. split; [reflexivity |].
  apply (proj1 (load_reads_only_class_and_data demo_load demo_load
                  tagged_env demo_env demo_state eq_refl eq_refl)).
Defined.

Lemma register_insert_idempotent_witness :
  "Other" <> "IntColumn" /\
  _profiles (register_profiler "IntColumn" "IntColumnV2" demo_state) !! "Other" =
  _profiles demo_state !! "Other".
Proof.
  split; [discriminate |].
  apply (proj1 (proj2 (proj1 (register_insert_idempotent "IntColumn"
                                demo_state) "IntColumnV2")) "Other").
  discriminate.
Defined.

Lemma lookup_non_string_witness :
  hashable_non_str (JInt 7) = true /\
  get_column_profiler_class (JInt 7) demo_state =
    (demo_state, Raise (ValueError "Invalid profiler class 7 failed to load.")).
Proof.
  split; [reflexivity |].
  apply (proj1 (lookup_non_string_value_error (JInt 7) demo_state eq_refl)).
Defined.

Lemma load_success_inversion_witness :
  load_column_profile demo_load demo_env demo_state =
    (with_call demo_state (ProfilerLoad "IntColumn" demo_data),
     Ret (JObj [("class", JStr "IntColumn"); ("x", JInt 1)])) /\
  exists n c d, demo_env !! "class" = Some (JStr n) /\
    _profiles demo_state !! n = Some c /\ demo_env !! "data" = Some d /\
    demo_load c d = Ret (JObj [("class", JStr "IntColumn"); ("x", JInt 1)]) /\
    with_call demo_state (ProfilerLoad "IntColumn" demo_data) =
    with_call demo_state (ProfilerLoad c d).
Proof.
  split; [reflexivity |].
  apply (proj1 (load_success_inversion demo_load demo_load demo_env
                  demo_state)).
  reflexivity.
Defined.

Lemma load_error_sources_witness :
  load_compiler demo_load compiler_env demo_state =
    (with_call demo_state (CompilerLoad "ColumnStatsProfileCompiler" (JInt 3)),
     Raise (TypeError "data must be a dict")) /\
  ((with_call demo_state (CompilerLoad "ColumnStatsProfileCompiler" (JInt 3))
      = demo_state /\
    (TypeError "data must be a dict" = KeyError "class" \/
     TypeError "data must be a dict" = KeyError "data" \/
     exc_type (TypeError "data must be a dict") = "ValueError" \/
     exc_type (TypeError "data must be a dict") = "TypeError")) \/
   exists n c d, compiler_env !! "class" = Some (JStr n) /\
     _compilers demo_state !! n = Some c /\ compiler_env !! "data" = Some d /\
     demo_load c d = Raise (TypeError "data must be a dict") /\
     with_call demo_state (CompilerLoad "ColumnStatsProfileCompiler" (JInt 3)) =
     with_call demo_state (CompilerLoad c d)).
Proof.
  split; [reflexivity |].
  apply (proj2 (load_error_sources demo_load demo_load compiler_env
                  demo_state)).
  reflexivity.
Defined.

Lemma register_then_lookup_witness :
  "IntColumn" <> "FloatColumn" /\
  snd (get_column_profiler_class (JStr "IntColumn")
         (register_profiler "FloatColumn" "FloatColumn" demo_state)) =
  snd (get_column_profiler_class (JStr "IntColumn") demo_state).
Proof.
  split; [discriminate |].
  apply (proj2 (proj1 (register_then_lookup "FloatColumn" demo_state)
                  "FloatColumn") "IntColumn").
  discriminate.
Defined.

(** ** Counterexamples *)

(** C2 as stated: looking up the unregistered ["Bar"] does not raise an
    [UnknownClassError]; it raises a [ValueError]. *)
Lemma lookup_unknown_not_unknown_class_error :
  get_column_profiler_class (JStr "Bar") demo_state =
    (demo_state, Raise (ValueError "Invalid profiler class Bar failed to load.")) /\
  ~ raises_unknown_class_error
      (snd (get_column_profiler_class (JStr "Bar") demo_state)).
Proof. split; [reflexivity |]. vm_compute. discriminate. Qed.

(** C5 as stated: loading [{"class": "Missing", "data": {}}] does not raise
    an [UnknownClassError]; it raises a [ValueError]. *)
Lemma load_missing_class_not_unknown_class_error :
  load_column_profile demo_load missing_env demo_state =
    (demo_state,
     Raise (ValueError "Invalid profiler class Missing failed to load.")) /\
  ~ raises_unknown_class_error
      (snd (load_column_profile demo_load missing_env demo_state)).
Proof. split; [reflexivity |]. vm_compute. discriminate. Qed.
